(** * CefSharp.Core: ManagedCefBrowserAdapter

    A shallow embedding of [ManagedCefBrowserAdapter]
    (src/CefSharp.Core/ManagedCefBrowserAdapter.h): its fields, its
    constructor, its finalizer [!ManagedCefBrowserAdapter] and its
    destructor [~ManagedCefBrowserAdapter], with the calls the adapter
    makes on its collaborators recorded in a log.

    The adapter is a C++/CLI ref class: methods mutate the fields of [this],
    a member call through a null handle raises NullReferenceException, and
    an exception leaves the fields as they were when it was raised.  The
    embedding is a state-and-exception monad over the adapter's fields, the
    log of calls and an allocation counter. *)

From Stdlib Require Import ZArith List Bool Lia.
From stdpp Require Import base option list gmap strings.

Local Open Scope Z_scope.

(** ** Collaborators

    The classes below are used by the adapter through handles; their code is
    not part of the header, so a handle is an identity (an address) together
    with the constructor arguments the adapter passes. *)

(** [IWebBrowserInternal^]: the embedding application's browser object. *)
Inductive IWebBrowserInternal : Type :=
  WebBrowser (addr : nat).

(** [TaskScheduler^]. *)
Inductive TaskScheduler : Type :=
  Scheduler (addr : nat).

(** [IBrowser^]: the live browser, known by its identifier. *)
Record IBrowser : Type := { Identifier : Z }.

(** [BrowserProcessServiceHost^]: the WCF service host. *)
Inductive BrowserProcessServiceHost : Type :=
  ServiceHost (addr : nat).

(** The pending-task table a client adapter owns. *)
Inductive PendingTaskRepository : Type :=
  PendingTasks (addr : nat).

(** [ClientAdapter] and its subclass [RenderClientAdapter]; [ca_render]
    tells which of the two was constructed. *)
Record ClientAdapter : Type := {
  ca_addr : nat;
  ca_render : bool;
  ca_browserControl : IWebBrowserInternal;
  ca_pendingTaskRepository : PendingTaskRepository
}.

Definition GetPendingTaskRepository (ca : ClientAdapter) : PendingTaskRepository :=
  ca_pendingTaskRepository ca.

Record JavascriptObjectRepository : Type := { jor_addr : nat }.

Record JavascriptCallbackFactory : Type := {
  jcf_addr : nat;
  jcf_pendingTasks : PendingTaskRepository
}.

Record MethodRunnerQueue : Type := {
  mrq_addr : nat;
  mrq_repository : option JavascriptObjectRepository;
  mrq_taskScheduler : TaskScheduler
}.

(** ** The adapter's fields (lines 31-38 of the header) *)

Record ManagedCefBrowserAdapter : Type := {
  _clientAdapter : option ClientAdapter;
  _browserProcessServiceHost : option BrowserProcessServiceHost;
  _webBrowserInternal : option IWebBrowserInternal;
  _javaScriptObjectRepository : option JavascriptObjectRepository;
  _javascriptCallbackFactory : option JavascriptCallbackFactory;
  _methodRunnerQueue : option MethodRunnerQueue;
  _browserWrapper : option IBrowser;
  _isDisposed : bool
}.

(** A ref class starts with every handle null and every bool false. *)
Definition zeroed : ManagedCefBrowserAdapter :=
  {| _clientAdapter := None;
     _browserProcessServiceHost := None;
     _webBrowserInternal := None;
     _javaScriptObjectRepository := None;
     _javascriptCallbackFactory := None;
     _methodRunnerQueue := None;
     _browserWrapper := None;
     _isDisposed := false |}.

Inductive Field : Type :=
| F_clientAdapter
| F_browserProcessServiceHost
| F_webBrowserInternal
| F_javaScriptObjectRepository
| F_javascriptCallbackFactory
| F_methodRunnerQueue
| F_browserWrapper
| F_isDisposed.

(** What an assignment stores: [nullptr], an object, or a bool. *)
Inductive Stored : Type :=
| Null
| Object
| Flag (b : bool).

(** ** The log: every assignment to a field and every call on a collaborator,
    in program order.  [QueueSubscribe] and [QueueUnsubscribe] stand for the
    whole statement of line 63 and of line 79: the creation of the
    [EventHandler] delegate and its addition to, or removal from, the queue's
    [MethodInvocationComplete] event. *)
Inductive Event : Type :=
| FieldWrite (f : Field) (v : Stored)
| NewClientAdapter (ca : ClientAdapter)
| NewObjectRepository (r : JavascriptObjectRepository)
| NewCallbackFactory (f : JavascriptCallbackFactory)
| NewMethodRunnerQueue (q : MethodRunnerQueue)
| ClientAdapterAddRef (ca : ClientAdapter)
| ClientAdapterRelease (ca : ClientAdapter)
| QueueSubscribe (q : MethodRunnerQueue)
| QueueUnsubscribe (q : MethodRunnerQueue)
| QueueStart (q : MethodRunnerQueue)
| QueueStop (q : MethodRunnerQueue)
| BrowserClose (b : IBrowser) (forceClose : bool)
| BrowserDelete (b : IBrowser)
| HostClose (h : BrowserProcessServiceHost) (timeout : Z)
| HostAbort (h : BrowserProcessServiceHost)
| RepositoryDelete (r : JavascriptObjectRepository).

(** ** Settings and the service host's behaviour

    [CefSharpSettings::WcfEnabled] and [CefSharpSettings::WcfTimeout] are
    static properties of a class outside the header; they are parameters of
    the model.  [WcfTimeout] is a TimeSpan, a signed count of ticks, and
    [TimeSpan::Zero] is 0 ticks.

    [ServiceHost::Close(TimeSpan)] belongs to the .NET framework: it returns
    when the host has closed, and raises TimeoutException when the close
    takes longer than the timeout it was given.  Which of the two happens is
    a parameter as well. *)
Record Environment : Type := {
  WcfEnabled : bool;
  WcfTimeout : Z;
  closeExceedsTimeout : BrowserProcessServiceHost -> Z -> bool
}.

(** ** Machine state and the monad *)

Record Machine : Type := {
  this : ManagedCefBrowserAdapter;
  log : list Event;
  next_addr : nat
}.

Inductive Exception : Type :=
| NullReferenceException
| TimeoutException.

Inductive Outcome (A : Type) : Type :=
| Returns (a : A)
| Throws (e : Exception).
Arguments Returns {A} a.
Arguments Throws {A} e.

Definition M (A : Type) : Type := Machine -> Outcome A * Machine.

Definition ret {A} (a : A) : M A := fun m => (Returns a, m).

Definition throw {A} (e : Exception) : M A := fun m => (Throws e, m).

Definition bind {A B} (c : M A) (k : A -> M B) : M B :=
  fun m =>
    match c m with
    | (Returns a, m') => k a m'
    | (Throws e, m') => (Throws e, m')
    end.

Declare Scope cli_scope.
Delimit Scope cli_scope with cli.
Notation "'let*' x ':=' c 'in' k" :=
  (bind c (fun x => k))
  (at level 10, x name, c at level 100, k at level 200) : cli_scope.
Notation "c1 ';;;' c2" :=
  (bind c1 (fun _ => c2))
  (at level 100, c2 at level 200, right associativity) : cli_scope.
Local Open Scope cli_scope.

(** [if (c) { body }] *)
Definition when (c : bool) (body : M unit) : M unit :=
  if c then body else ret tt.

Definition emit (e : Event) : M unit :=
  fun m => (Returns tt, {| this := this m; log := log m ++ [e]; next_addr := next_addr m |}).

(** Reading a field of [this]. *)
Definition read {A} (field : ManagedCefBrowserAdapter -> A) : M A :=
  fun m => (Returns (field (this m)), m).

Definition modify (f : ManagedCefBrowserAdapter -> ManagedCefBrowserAdapter) : M unit :=
  fun m => (Returns tt, {| this := f (this m); log := log m; next_addr := next_addr m |}).

(** [gcnew] and [new] take the next free address. *)
Definition fresh : M nat :=
  fun m => (Returns (next_addr m),
            {| this := this m; log := log m; next_addr := S (next_addr m) |}).

(** [h->Member(...)]: a call through a null handle raises. *)
Definition invoke {H A} (h : option H) (member : H -> M A) : M A :=
  match h with
  | Some o => member o
  | None => throw NullReferenceException
  end.

(** [delete h]: disposes the object when the handle is not null. *)
Definition delete {H} (h : option H) (dispose : H -> Event) : M unit :=
  match h with
  | Some o => emit (dispose o)
  | None => ret tt
  end.

Definition is_null {H} (h : option H) : bool :=
  match h with
  | Some _ => false
  | None => true
  end.

Definition stored {H} (h : option H) : Stored :=
  if is_null h then Null else Object.

(** *** Assignments, one per field the code assigns *)

Definition with_clientAdapter v (a : ManagedCefBrowserAdapter) :=
  {| _clientAdapter := v;
     _browserProcessServiceHost := _browserProcessServiceHost a;
     _webBrowserInternal := _webBrowserInternal a;
     _javaScriptObjectRepository := _javaScriptObjectRepository a;
     _javascriptCallbackFactory := _javascriptCallbackFactory a;
     _methodRunnerQueue := _methodRunnerQueue a;
     _browserWrapper := _browserWrapper a;
     _isDisposed := _isDisposed a |}.

Definition with_browserProcessServiceHost v (a : ManagedCefBrowserAdapter) :=
  {| _clientAdapter := _clientAdapter a;
     _browserProcessServiceHost := v;
     _webBrowserInternal := _webBrowserInternal a;
     _javaScriptObjectRepository := _javaScriptObjectRepository a;
     _javascriptCallbackFactory := _javascriptCallbackFactory a;
     _methodRunnerQueue := _methodRunnerQueue a;
     _browserWrapper := _browserWrapper a;
     _isDisposed := _isDisposed a |}.

Definition with_webBrowserInternal v (a : ManagedCefBrowserAdapter) :=
  {| _clientAdapter := _clientAdapter a;
     _browserProcessServiceHost := _browserProcessServiceHost a;
     _webBrowserInternal := v;
     _javaScriptObjectRepository := _javaScriptObjectRepository a;
     _javascriptCallbackFactory := _javascriptCallbackFactory a;
     _methodRunnerQueue := _methodRunnerQueue a;
     _browserWrapper := _browserWrapper a;
     _isDisposed := _isDisposed a |}.

Definition with_javaScriptObjectRepository v (a : ManagedCefBrowserAdapter) :=
  {| _clientAdapter := _clientAdapter a;
     _browserProcessServiceHost := _browserProcessServiceHost a;
     _webBrowserInternal := _webBrowserInternal a;
     _javaScriptObjectRepository := v;
     _javascriptCallbackFactory := _javascriptCallbackFactory a;
     _methodRunnerQueue := _methodRunnerQueue a;
     _browserWrapper := _browserWrapper a;
     _isDisposed := _isDisposed a |}.

Definition with_javascriptCallbackFactory v (a : ManagedCefBrowserAdapter) :=
  {| _clientAdapter := _clientAdapter a;
     _browserProcessServiceHost := _browserProcessServiceHost a;
     _webBrowserInternal := _webBrowserInternal a;
     _javaScriptObjectRepository := _javaScriptObjectRepository a;
     _javascriptCallbackFactory := v;
     _methodRunnerQueue := _methodRunnerQueue a;
     _browserWrapper := _browserWrapper a;
     _isDisposed := _isDisposed a |}.

Definition with_methodRunnerQueue v (a : ManagedCefBrowserAdapter) :=
  {| _clientAdapter := _clientAdapter a;
     _browserProcessServiceHost := _browserProcessServiceHost a;
     _webBrowserInternal := _webBrowserInternal a;
     _javaScriptObjectRepository := _javaScriptObjectRepository a;
     _javascriptCallbackFactory := _javascriptCallbackFactory a;
     _methodRunnerQueue := v;
     _browserWrapper := _browserWrapper a;
     _isDisposed := _isDisposed a |}.

Definition with_browserWrapper v (a : ManagedCefBrowserAdapter) :=
  {| _clientAdapter := _clientAdapter a;
     _browserProcessServiceHost := _browserProcessServiceHost a;
     _webBrowserInternal := _webBrowserInternal a;
     _javaScriptObjectRepository := _javaScriptObjectRepository a;
     _javascriptCallbackFactory := _javascriptCallbackFactory a;
     _methodRunnerQueue := _methodRunnerQueue a;
     _browserWrapper := v;
     _isDisposed := _isDisposed a |}.

Definition with_isDisposed v (a : ManagedCefBrowserAdapter) :=
  {| _clientAdapter := _clientAdapter a;
     _browserProcessServiceHost := _browserProcessServiceHost a;
     _webBrowserInternal := _webBrowserInternal a;
     _javaScriptObjectRepository := _javaScriptObjectRepository a;
     _javascriptCallbackFactory := _javascriptCallbackFactory a;
     _methodRunnerQueue := _methodRunnerQueue a;
     _browserWrapper := _browserWrapper a;
     _isDisposed := v |}.

(** [field = v] for a garbage-collected handle or a bool. *)
Definition assign (f : Field) (v : Stored)
    (update : ManagedCefBrowserAdapter -> ManagedCefBrowserAdapter) : M unit :=
  modify update ;;; emit (FieldWrite f v).

(** Modelled from the spec: [MCefRefPtr] (Internals/MCefRefPtr.h) is not in
    the header.  The spec describes the client adapter's handle as "a
    reference-counted native handle" with "explicit release on the adapter
    side": assigning to it drops the reference it held and takes one on the
    new pointer. *)
Definition assign_clientAdapter (v : option ClientAdapter) : M unit :=
  let* old := read _clientAdapter in
  delete old ClientAdapterRelease ;;;
  delete v ClientAdapterAddRef ;;;
  assign F_clientAdapter (stored v) (with_clientAdapter v).

(** ** Calls on collaborators *)

(** [host->Close(timeout)] *)
Definition Close (env : Environment) (timeout : Z) (h : BrowserProcessServiceHost) : M unit :=
  emit (HostClose h timeout) ;;;
  if closeExceedsTimeout env h timeout then throw TimeoutException else ret tt.

(** [host->Abort()] *)
Definition Abort (h : BrowserProcessServiceHost) : M unit :=
  emit (HostAbort h).

(** ** The finalizer, lines 67-70 *)
Definition Finalizer : M unit :=
  assign_clientAdapter None.

(** ** The destructor, lines 72-112 *)
Definition Destructor (env : Environment) : M unit :=
  assign F_isDisposed (Flag true) (with_isDisposed true) ;;;
  (let* q := read _methodRunnerQueue in
   when (negb (is_null q))
     ((let* q := read _methodRunnerQueue in invoke q (fun o => emit (QueueUnsubscribe o))) ;;;
      (let* q := read _methodRunnerQueue in invoke q (fun o => emit (QueueStop o))) ;;;
      assign F_methodRunnerQueue Null (with_methodRunnerQueue None))) ;;;
  Finalizer ;;;
  (let* b := read _browserWrapper in
   when (negb (is_null b))
     ((let* b := read _browserWrapper in invoke b (fun o => emit (BrowserClose o true))) ;;;
      (let* b := read _browserWrapper in delete b BrowserDelete) ;;;
      assign F_browserWrapper Null (with_browserWrapper None))) ;;;
  (let* h := read _browserProcessServiceHost in
   when (WcfEnabled env && negb (is_null h))
     ((if WcfTimeout env >? 0
       then let* h := read _browserProcessServiceHost in invoke h (Close env (WcfTimeout env))
       else let* h := read _browserProcessServiceHost in invoke h Abort) ;;;
      assign F_browserProcessServiceHost Null (with_browserProcessServiceHost None))) ;;;
  assign F_webBrowserInternal Null (with_webBrowserInternal None) ;;;
  (let* r := read _javaScriptObjectRepository in delete r RepositoryDelete) ;;;
  assign F_javaScriptObjectRepository Null (with_javaScriptObjectRepository None).

(** ** The constructor, lines 47-65

    [new ClientAdapter(...)], [new RenderClientAdapter(...)] and the three
    [gcnew] allocate objects of classes outside the header; each takes fresh
    addresses and records the arguments it was given.  A client adapter
    allocates its own pending-task table. *)

Definition new_ClientAdapter (render : bool) (browserControl : IWebBrowserInternal)
  : M ClientAdapter :=
  let* a := fresh in
  let* p := fresh in
  let ca := {| ca_addr := a; ca_render := render;
               ca_browserControl := browserControl;
               ca_pendingTaskRepository := PendingTasks p |} in
  emit (NewClientAdapter ca) ;;; ret ca.

Definition gcnew_JavascriptObjectRepository : M JavascriptObjectRepository :=
  let* a := fresh in
  let r := {| jor_addr := a |} in
  emit (NewObjectRepository r) ;;; ret r.

Definition gcnew_JavascriptCallbackFactory (pending : PendingTaskRepository)
  : M JavascriptCallbackFactory :=
  let* a := fresh in
  let f := {| jcf_addr := a; jcf_pendingTasks := pending |} in
  emit (NewCallbackFactory f) ;;; ret f.

Definition gcnew_MethodRunnerQueue (repository : option JavascriptObjectRepository)
    (taskScheduler : TaskScheduler) : M MethodRunnerQueue :=
  let* a := fresh in
  let q := {| mrq_addr := a; mrq_repository := repository;
              mrq_taskScheduler := taskScheduler |} in
  emit (NewMethodRunnerQueue q) ;;; ret q.

Definition Constructor (webBrowserInternal : IWebBrowserInternal)
    (offScreenRendering : bool) (taskScheduler : TaskScheduler) : M unit :=
  assign F_isDisposed (Flag false) (with_isDisposed false) ;;;
  (if offScreenRendering
   then let* ca := new_ClientAdapter true webBrowserInternal in
        assign_clientAdapter (Some ca)
   else let* ca := new_ClientAdapter false webBrowserInternal in
        assign_clientAdapter (Some ca)) ;;;
  assign F_webBrowserInternal Object (with_webBrowserInternal (Some webBrowserInternal)) ;;;
  (let* r := gcnew_JavascriptObjectRepository in
   assign F_javaScriptObjectRepository Object (with_javaScriptObjectRepository (Some r))) ;;;
  (let* ca := read _clientAdapter in
   let* p := invoke ca (fun o => ret (GetPendingTaskRepository o)) in
   let* f := gcnew_JavascriptCallbackFactory p in
   assign F_javascriptCallbackFactory Object (with_javascriptCallbackFactory (Some f))) ;;;
  (let* r := read _javaScriptObjectRepository in
   let* q := gcnew_MethodRunnerQueue r taskScheduler in
   assign F_methodRunnerQueue Object (with_methodRunnerQueue (Some q))) ;;;
  (let* q := read _methodRunnerQueue in invoke q (fun o => emit (QueueSubscribe o))) ;;;
  (let* q := read _methodRunnerQueue in invoke q (fun o => emit (QueueStart o))).

(** A new object: zeroed fields, then the constructor. *)
Definition construct (webBrowserInternal : IWebBrowserInternal)
    (offScreenRendering : bool) (taskScheduler : TaskScheduler)
    (trace : list Event) (free : nat) : Outcome unit * Machine :=
  Constructor webBrowserInternal offScreenRendering taskScheduler
    {| this := zeroed; log := trace; next_addr := free |}.

(** ** Reading a run *)

(** The events a computation appended to the log. *)
Definition events_since (m m' : Machine) : list Event :=
  drop (length (log m)) (log m').

(** The calls that give a resource up, and the resource each gives up. *)
Inductive Resource : Type :=
| TheQueue (q : MethodRunnerQueue)
| TheClientAdapter (ca : ClientAdapter)
| TheBrowser (b : IBrowser)
| TheHost (h : BrowserProcessServiceHost)
| TheRepository (r : JavascriptObjectRepository).

Definition released (e : Event) : option Resource :=
  match e with
  | QueueStop q => Some (TheQueue q)
  | ClientAdapterRelease ca => Some (TheClientAdapter ca)
  | BrowserDelete b => Some (TheBrowser b)
  | HostClose h _ => Some (TheHost h)
  | HostAbort h => Some (TheHost h)
  | RepositoryDelete r => Some (TheRepository r)
  | _ => None
  end.

(** The calls made on the service host. *)
Definition on_host (e : Event) : bool :=
  match e with
  | HostClose _ _ | HostAbort _ => true
  | _ => false
  end.

(** Whether the destructor reaches [Close] on a host whose close takes
    longer than [WcfTimeout]. *)
Definition close_times_out (env : Environment) (a : ManagedCefBrowserAdapter) : bool :=
  match _browserProcessServiceHost a with
  | Some h => WcfEnabled env && (WcfTimeout env >? 0)
              && closeExceedsTimeout env h (WcfTimeout env)
  | None => false
  end.

(** ** The teardown protocol in the words of the specification (section 4.1)

    Six steps; each looks only at its own resource. *)

Definition step1_mark_disposed : list Event :=
  [FieldWrite F_isDisposed (Flag true)].

Definition step2_stop_queue (a : ManagedCefBrowserAdapter) : list Event :=
  match _methodRunnerQueue a with
  | Some q => [QueueUnsubscribe q; QueueStop q; FieldWrite F_methodRunnerQueue Null]
  | None => []
  end.

Definition step3_release_client (a : ManagedCefBrowserAdapter) : list Event :=
  match _clientAdapter a with
  | Some ca => [ClientAdapterRelease ca; FieldWrite F_clientAdapter Null]
  | None => [FieldWrite F_clientAdapter Null]
  end.

Definition step4_close_browser (a : ManagedCefBrowserAdapter) : list Event :=
  match _browserWrapper a with
  | Some b => [BrowserClose b true; BrowserDelete b; FieldWrite F_browserWrapper Null]
  | None => []
  end.

Definition step5_close_or_abort (env : Environment) (h : BrowserProcessServiceHost) : Event :=
  if WcfTimeout env >? 0 then HostClose h (WcfTimeout env) else HostAbort h.

Definition step5_close_host (env : Environment) (a : ManagedCefBrowserAdapter) : list Event :=
  match _browserProcessServiceHost a with
  | Some h =>
      if WcfEnabled env
      then [step5_close_or_abort env h; FieldWrite F_browserProcessServiceHost Null]
      else []
  | None => []
  end.

Definition step6_release_rest (a : ManagedCefBrowserAdapter) : list Event :=
  match _javaScriptObjectRepository a with
  | Some r => [FieldWrite F_webBrowserInternal Null; RepositoryDelete r;
               FieldWrite F_javaScriptObjectRepository Null]
  | None => [FieldWrite F_webBrowserInternal Null;
             FieldWrite F_javaScriptObjectRepository Null]
  end.

Definition teardown_protocol (env : Environment) (a : ManagedCefBrowserAdapter) : list Event :=
  step1_mark_disposed ++ step2_stop_queue a ++ step3_release_client a
  ++ step4_close_browser a ++ step5_close_host env a ++ step6_release_rest a.

(** The fields after a teardown that ran to its end. *)
Definition torn_down (env : Environment) (a : ManagedCefBrowserAdapter)
  : ManagedCefBrowserAdapter :=
  {| _clientAdapter := None;
     _browserProcessServiceHost :=
       if WcfEnabled env then None else _browserProcessServiceHost a;
     _webBrowserInternal := None;
     _javaScriptObjectRepository := None;
     _javascriptCallbackFactory := _javascriptCallbackFactory a;
     _methodRunnerQueue := None;
     _browserWrapper := None;
     _isDisposed := true |}.

(** The fields when [Close] raised: steps 1 to 4 are done, the rest is not. *)
Definition interrupted (a : ManagedCefBrowserAdapter) : ManagedCefBrowserAdapter :=
  {| _clientAdapter := None;
     _browserProcessServiceHost := _browserProcessServiceHost a;
     _webBrowserInternal := _webBrowserInternal a;
     _javaScriptObjectRepository := _javaScriptObjectRepository a;
     _javascriptCallbackFactory := _javascriptCallbackFactory a;
     _methodRunnerQueue := None;
     _browserWrapper := None;
     _isDisposed := true |}.

(** ** Entry points declared in the header whose bodies are elsewhere *)

(** Modelled from the spec: the body of [OnAfterBrowserCreated] (declared
    at line 119) is in ManagedCefBrowserAdapter.cpp, which is not among the
    sources.  Section 4.1 of the spec: it "records the live Browser Handle";
    "if disposal is in progress or complete, the handle must not be retained
    and must be released immediately". *)
Definition OnAfterBrowserCreated (browser : IBrowser) : M unit :=
  let* disposed := read _isDisposed in
  if disposed
  then emit (BrowserDelete browser)
  else assign F_browserWrapper Object (with_browserWrapper (Some browser)).

(** ** The method invocation queue *)

Module MethodRunnerQueueModel.

(** Modelled from the spec: [MethodRunnerQueue] and
    [JavascriptObjectRepository] are C# classes of CefSharp/Internals,
    which are not among the sources; the header only constructs, starts
    and stops the queue.  Section 4.2 of the spec: the bridge "enqueues
    invocation requests (target object name, method name, arguments)"; "a
    dedicated consumer, started explicitly and stopped explicitly, drains
    the queue and executes each request against the Object Repository";
    "each executed request raises a method invocation complete
    notification carrying the result or failure"; "start() is idempotent
    while running; stop() drains no further items and releases the
    consumer; enqueue after stop() is a no-op".  Section 4.4: the
    repository maps names to host objects and "lookup by name returns the
    object or a not found result".  Section 7 (c): a method that raises is
    "converted to a failure result delivered through the completion
    notification, queue continues". *)

Record MethodInvocation : Type := {
  ObjectName : string;
  MethodName : string;
  Parameters : list Z
}.

(** A host object: its invocable methods by name; a method returns a
    value or raises ([None]). *)
Record HostObject : Type := {
  methods : gmap string (list Z -> option Z)
}.

Inductive InvocationError : Type :=
| ObjectNotFound
| MethodNotFound
| MethodRaised.

Inductive MethodResult : Type :=
| Success (value : Z)
| Failure (error : InvocationError).

Definition execute (registry : gmap string HostObject) (inv : MethodInvocation)
  : MethodResult :=
  match registry !! ObjectName inv with
  | None => Failure ObjectNotFound
  | Some o =>
      match methods o !! MethodName inv with
      | None => Failure MethodNotFound
      | Some method =>
          match method (Parameters inv) with
          | Some v => Success v
          | None => Failure MethodRaised
          end
      end
  end.

Inductive Consumer : Type :=
| NotStarted
| Running
| Stopped.

Record Queue : Type := {
  registry : gmap string HostObject;
  consumer : Consumer;
  pending : list MethodInvocation;
  notifications : list (MethodInvocation * MethodResult)
}.

Definition create (objects : gmap string HostObject) : Queue :=
  {| registry := objects; consumer := NotStarted; pending := [];
     notifications := [] |}.

(** The application registers an object; the queue sees it at once. *)
Definition Register (name : string) (o : HostObject) (q : Queue) : Queue :=
  {| registry := <[name := o]> (registry q); consumer := consumer q;
     pending := pending q; notifications := notifications q |}.

Definition Enqueue (inv : MethodInvocation) (q : Queue) : Queue :=
  match consumer q with
  | Stopped => q
  | _ => {| registry := registry q; consumer := consumer q;
            pending := pending q ++ [inv]; notifications := notifications q |}
  end.

(** The spec does not say what [start()] does after [stop()]; here the
    consumer, once released, stays released. *)
Definition Start (q : Queue) : Queue :=
  match consumer q with
  | NotStarted => {| registry := registry q; consumer := Running;
                     pending := pending q; notifications := notifications q |}
  | _ => q
  end.

Definition Stop (q : Queue) : Queue :=
  {| registry := registry q; consumer := Stopped;
     pending := pending q; notifications := notifications q |}.

(** One turn of the consumer: the oldest pending request is executed and
    its completion notified. *)
Definition Consume (q : Queue) : Queue :=
  match consumer q, pending q with
  | Running, inv :: rest =>
      {| registry := registry q; consumer := Running; pending := rest;
         notifications := notifications q ++ [(inv, execute (registry q) inv)] |}
  | _, _ => q
  end.

Inductive Action : Type :=
| DoRegister (name : string) (o : HostObject)
| DoEnqueue (inv : MethodInvocation)
| DoStart
| DoStop
| DoConsume.

Definition act (q : Queue) (a : Action) : Queue :=
  match a with
  | DoRegister name o => Register name o q
  | DoEnqueue inv => Enqueue inv q
  | DoStart => Start q
  | DoStop => Stop q
  | DoConsume => Consume q
  end.

Definition run (actions : list Action) (q : Queue) : Queue :=
  fold_left act actions q.

(** The requests of a schedule that are enqueued before its first
    [stop()], in the order of their enqueueing. *)
Fixpoint submitted (actions : list Action) : list MethodInvocation :=
  match actions with
  | [] => []
  | DoEnqueue inv :: rest => inv :: submitted rest
  | DoStop :: _ => []
  | _ :: rest => submitted rest
  end.

(** The requests whose completion has been notified, oldest first. *)
Definition completed (q : Queue) : list MethodInvocation :=
  map fst (notifications q).

(** What a schedule adds to the requests a queue has seen. *)
Definition accepted (q : Queue) (schedule : list Action) : list MethodInvocation :=
  match consumer q with
  | Stopped => []
  | _ => submitted schedule
  end.

End MethodRunnerQueueModel.

(** Concrete inputs used to exercise the theorems: an adapter that holds
    every resource, and three environments. *)
Definition sample_clientAdapter : ClientAdapter :=
  {| ca_addr := 0; ca_render := false; ca_browserControl := WebBrowser 100;
     ca_pendingTaskRepository := PendingTasks 1 |}.

Definition sample_queue : MethodRunnerQueue :=
  {| mrq_addr := 4; mrq_repository := Some {| jor_addr := 2 |};
     mrq_taskScheduler := Scheduler 101 |}.

Definition loaded : Machine :=
  {| this :=
       {| _clientAdapter := Some sample_clientAdapter;
          _browserProcessServiceHost := Some (ServiceHost 7);
          _webBrowserInternal := Some (WebBrowser 100);
          _javaScriptObjectRepository := Some {| jor_addr := 2 |};
          _javascriptCallbackFactory :=
            Some {| jcf_addr := 3; jcf_pendingTasks := PendingTasks 1 |};
          _methodRunnerQueue := Some sample_queue;
          _browserWrapper := Some {| Identifier := 1 |};
          _isDisposed := false |};
     log := [];
     next_addr := 8 |}.

(** WCF on, two seconds of timeout (in ticks), the host closes in time. *)
Definition prompt_env : Environment :=
  {| WcfEnabled := true; WcfTimeout := 20000000;
     closeExceedsTimeout := fun _ _ => false |}.

(** WCF on, two seconds of timeout, the host does not close in time. *)
Definition slow_env : Environment :=
  {| WcfEnabled := true; WcfTimeout := 20000000;
     closeExceedsTimeout := fun _ _ => true |}.

(** WCF off. *)
Definition wcf_off_env : Environment :=
  {| WcfEnabled := false; WcfTimeout := 20000000;
     closeExceedsTimeout := fun _ _ => true |}.

(** WCF on, no timeout set: [TimeSpan] defaults to zero. *)
Definition no_timeout_env : Environment :=
  {| WcfEnabled := true; WcfTimeout := 0;
     closeExceedsTimeout := fun _ _ => true |}.


(** ** Summaries of a destructor run, whether it returns or is left by
    [Close] *)

(** What the destructor answers. *)
Definition teardown_outcome (env : Environment) (a : ManagedCefBrowserAdapter)
  : Outcome unit :=
  if close_times_out env a then Throws TimeoutException else Returns tt.

(** The fields it leaves. *)
Definition teardown_fields (env : Environment) (a : ManagedCefBrowserAdapter)
  : ManagedCefBrowserAdapter :=
  if close_times_out env a then interrupted a else torn_down env a.

(** What it logs after the browser wrapper has been dealt with. *)
Definition teardown_tail (env : Environment) (a : ManagedCefBrowserAdapter) : list Event :=
  if close_times_out env a
  then match _browserProcessServiceHost a with
       | Some h => [HostClose h (WcfTimeout env)]
       | None => []
       end
  else step5_close_host env a ++ step6_release_rest a.

(** ** Cleanup histories: the finalizer and the destructor, called on one
    adapter any number of times and in any order (the destructor by the
    application, the finalizer by the garbage collector). *)
Inductive Cleanup : Type :=
| Finalize
| Dispose (env : Environment).

Definition cleanup (c : Cleanup) : M unit :=
  match c with
  | Finalize => Finalizer
  | Dispose env => Destructor env
  end.

Definition cleanup_all (cs : list Cleanup) (m : Machine) : Machine :=
  fold_left (fun m c => snd (cleanup c m)) cs m.

(** The client adapters whose native reference a run gave up. *)
Definition client_releases (es : list Event) : list ClientAdapter :=
  omap (fun e => match e with
                 | ClientAdapterRelease ca => Some ca
                 | _ => None
                 end) es.

(** The calls that take a resource, and the resource each takes. *)
Definition acquired (e : Event) : option Resource :=
  match e with
  | ClientAdapterAddRef ca => Some (TheClientAdapter ca)
  | NewObjectRepository r => Some (TheRepository r)
  | QueueStart q => Some (TheQueue q)
  | _ => None
  end.

(** Subscriptions to and from the queue's completion event. *)
Definition on_subscription (e : Event) : bool :=
  match e with
  | QueueSubscribe _ | QueueUnsubscribe _ => true
  | _ => false
  end.

(** Assignments to [_javascriptCallbackFactory]. *)
Definition writes_callback_factory (e : Event) : bool :=
  match e with
  | FieldWrite F_javascriptCallbackFactory _ => true
  | _ => false
  end.





(** * Proofs *)

Ltac unfold_cli :=
  unfold construct, Destructor, Constructor, Finalizer, assign_clientAdapter, assign,
    new_ClientAdapter, gcnew_JavascriptObjectRepository,
    gcnew_JavascriptCallbackFactory, gcnew_MethodRunnerQueue,
    Close, Abort, when, invoke, delete, emit, read, modify, fresh,
    bind, ret, throw, is_null, stored.

Ltac flatten_log := repeat (rewrite <- app_assoc; simpl).

Lemma events_since_app (m m' : Machine) (es : list Event) :
  log m' = log m ++ es -> events_since m m' = es.
Proof.
  intros E. unfold events_since. rewrite E. apply drop_app_length.
Qed.

(** The destructor in closed form, when [Close] does not raise. *)
Lemma Destructor_completes (env : Environment) (m : Machine) :
  close_times_out env (this m) = false ->
  Destructor env m =
    (Returns tt,
     {| this := torn_down env (this m);
        log := log m ++ teardown_protocol env (this m);
        next_addr := next_addr m |}).
Proof.
  destruct m as [[ca h w r f q b d] l n].
  unfold close_times_out, teardown_protocol, torn_down, step1_mark_disposed,
    step2_stop_queue, step3_release_client, step4_close_browser, step5_close_host,
    step5_close_or_abort, step6_release_rest.
  simpl. intros E.
  destruct q, ca, b, h, r; unfold_cli; simpl;
    destruct (WcfEnabled env); simpl in *;
    try destruct (WcfTimeout env >? 0); simpl in *;
    try rewrite E; simpl; flatten_log; reflexivity.
Qed.

(** The destructor in closed form, when [Close] raises. *)
Lemma Destructor_times_out (env : Environment) (m : Machine) (h : BrowserProcessServiceHost) :
  _browserProcessServiceHost (this m) = Some h ->
  close_times_out env (this m) = true ->
  Destructor env m =
    (Throws TimeoutException,
     {| this := interrupted (this m);
        log := log m ++ step1_mark_disposed ++ step2_stop_queue (this m)
               ++ step3_release_client (this m) ++ step4_close_browser (this m)
               ++ [HostClose h (WcfTimeout env)];
        next_addr := next_addr m |}).
Proof.
  destruct m as [[ca h0 w r f q b d] l n].
  unfold close_times_out, interrupted, step1_mark_disposed,
    step2_stop_queue, step3_release_client, step4_close_browser.
  simpl. intros -> E.
  apply andb_prop in E as [E E3]. apply andb_prop in E as [E1 E2].
  destruct q, ca, b; unfold_cli; simpl;
    rewrite E1; simpl; rewrite E2; simpl; rewrite E3; simpl;
    flatten_log; reflexivity.
Qed.

Lemma events_of_Destructor_completes (env : Environment) (m : Machine) :
  close_times_out env (this m) = false ->
  events_since m (snd (Destructor env m)) = teardown_protocol env (this m).
Proof.
  intros E. rewrite (Destructor_completes env m E). simpl.
  now apply events_since_app.
Qed.

(** C7. The finalizer returns, gives up the client adapter's native
    reference when one is held, leaves [_clientAdapter] null and leaves
    every other field as it was; the release is the only call it makes. *)
Theorem finalizer_releases_only_client_adapter (m : Machine) :
  fst (Finalizer m) = Returns tt /\
  _clientAdapter (this (snd (Finalizer m))) = None /\
  events_since m (snd (Finalizer m)) =
    match _clientAdapter (this m) with
    | Some ca => [ClientAdapterRelease ca; FieldWrite F_clientAdapter Null]
    | None => [FieldWrite F_clientAdapter Null]
    end /\
  _methodRunnerQueue (this (snd (Finalizer m))) = _methodRunnerQueue (this m) /\
  _browserWrapper (this (snd (Finalizer m))) = _browserWrapper (this m) /\
  _browserProcessServiceHost (this (snd (Finalizer m))) = _browserProcessServiceHost (this m) /\
  _webBrowserInternal (this (snd (Finalizer m))) = _webBrowserInternal (this m) /\
  _javaScriptObjectRepository (this (snd (Finalizer m))) = _javaScriptObjectRepository (this m) /\
  _javascriptCallbackFactory (this (snd (Finalizer m))) = _javascriptCallbackFactory (this m) /\
  _isDisposed (this (snd (Finalizer m))) = _isDisposed (this m).
Proof.
  destruct m as [[ca h w r f q b d] l n].
  destruct ca as [ca|]; unfold_cli; simpl;
    (repeat split; try reflexivity);
    apply events_since_app; simpl; flatten_log; reflexivity.
Qed.

(** ** What the teardown leaves behind *)

Lemma close_times_out_wcf_off (env : Environment) (a : ManagedCefBrowserAdapter) :
  WcfEnabled env = false -> close_times_out env a = false.
Proof.
  intros E. unfold close_times_out. rewrite E. now destruct (_browserProcessServiceHost a).
Qed.

Lemma step5_wcf_off (env : Environment) (a : ManagedCefBrowserAdapter) :
  WcfEnabled env = false -> step5_close_host env a = [].
Proof.
  intros E. unfold step5_close_host. rewrite E.
  now destruct (_browserProcessServiceHost a).
Qed.

(** No step but the fifth calls the service host. *)
Lemma steps_before_host_make_no_host_call (a : ManagedCefBrowserAdapter) :
  List.filter on_host
    (step1_mark_disposed ++ step2_stop_queue a ++ step3_release_client a
     ++ step4_close_browser a) = [].
Proof.
  unfold step1_mark_disposed, step2_stop_queue, step3_release_client, step4_close_browser.
  now destruct (_methodRunnerQueue a), (_clientAdapter a), (_browserWrapper a).
Qed.

Lemma step6_makes_no_host_call (a : ManagedCefBrowserAdapter) :
  List.filter on_host (step6_release_rest a) = [].
Proof.
  unfold step6_release_rest. now destruct (_javaScriptObjectRepository a).
Qed.

Lemma host_calls_of_protocol (env : Environment) (a : ManagedCefBrowserAdapter) :
  List.filter on_host (teardown_protocol env a) =
  List.filter on_host (step5_close_host env a).
Proof.
  unfold teardown_protocol.
  rewrite !List.filter_app.
  pose proof (steps_before_host_make_no_host_call a) as E.
  rewrite !List.filter_app in E.
  apply app_eq_nil in E as [-> E]. apply app_eq_nil in E as [-> E].
  apply app_eq_nil in E as [-> ->].
  rewrite step6_makes_no_host_call. simpl. now rewrite app_nil_r.
Qed.

(** C10. After a teardown that ran to its end the queue, the browser
    wrapper, the back-reference, the object repository and the client
    adapter are null.  The service host's reference is null when WCF is
    enabled; when WCF is disabled the teardown makes no call on the host,
    does not assign the field, and the reference it held is still there. *)
Theorem teardown_clears_host_only_when_wcf_enabled (env : Environment) (m : Machine)
    (Hclose : close_times_out env (this m) = false) :
  let after := this (snd (Destructor env m)) in
  let made := events_since m (snd (Destructor env m)) in
  fst (Destructor env m) = Returns tt /\
  _methodRunnerQueue after = None /\
  _browserWrapper after = None /\
  _webBrowserInternal after = None /\
  _javaScriptObjectRepository after = None /\
  _clientAdapter after = None /\
  if WcfEnabled env
  then _browserProcessServiceHost after = None
  else _browserProcessServiceHost after = _browserProcessServiceHost (this m) /\
       List.filter on_host made = [] /\
       ~ In (FieldWrite F_browserProcessServiceHost Null) made.
Proof.
  cbv zeta.
  rewrite (events_of_Destructor_completes env m Hclose).
  rewrite (Destructor_completes env m Hclose).
  remember (teardown_protocol env (this m)) as made eqn:Emade. simpl.
  repeat (split; [reflexivity|]).
  destruct (WcfEnabled env) eqn:E; [reflexivity|].
  split; [reflexivity|]. subst made. split.
  - rewrite host_calls_of_protocol, step5_wcf_off by assumption. reflexivity.
  - unfold teardown_protocol. rewrite step5_wcf_off by assumption.
    unfold step1_mark_disposed, step2_stop_queue, step3_release_client,
      step4_close_browser, step6_release_rest.
    destruct (_methodRunnerQueue (this m)), (_clientAdapter (this m)),
      (_browserWrapper (this m)), (_javaScriptObjectRepository (this m));
      simpl; intuition discriminate.
Qed.

Lemma teardown_clears_host_only_when_wcf_enabled_witness :
  close_times_out wcf_off_env (this loaded) = false /\
  let after := this (snd (Destructor wcf_off_env loaded)) in
  let made := events_since loaded (snd (Destructor wcf_off_env loaded)) in
  fst (Destructor wcf_off_env loaded) = Returns tt /\
  _methodRunnerQueue after = None /\
  _browserWrapper after = None /\
  _webBrowserInternal after = None /\
  _javaScriptObjectRepository after = None /\
  _clientAdapter after = None /\
  _browserProcessServiceHost after = Some (ServiceHost 7) /\
  List.filter on_host made = [] /\
  ~ In (FieldWrite F_browserProcessServiceHost Null) made.
Proof.
  split; [reflexivity|].
  exact (teardown_clears_host_only_when_wcf_enabled wcf_off_env loaded eq_refl).
Defined.

(** C6. When WCF is enabled and the adapter holds a service host, the
    teardown makes exactly one call on the host: [Close] with [WcfTimeout]
    when the timeout is greater than zero, [Abort] when it is zero (the
    value of a TimeSpan that was never set) or less.  On the abort path no
    call takes the timeout and the teardown returns whatever time a close
    would have needed. *)
Theorem host_is_closed_or_aborted_once (env : Environment) (m : Machine)
    (h : BrowserProcessServiceHost)
    (Hwcf : WcfEnabled env = true)
    (Hhost : _browserProcessServiceHost (this m) = Some h) :
  let made := events_since m (snd (Destructor env m)) in
  if WcfTimeout env >? 0
  then List.filter on_host made = [HostClose h (WcfTimeout env)]
  else List.filter on_host made = [HostAbort h] /\
       fst (Destructor env m) = Returns tt.
Proof.
  cbv zeta.
  destruct (close_times_out env (this m)) eqn:E.
  - rewrite (Destructor_times_out env m h Hhost E). cbn [snd fst].
    erewrite events_since_app by (cbn [log]; reflexivity).
    unfold close_times_out in E. rewrite Hhost, Hwcf in E. simpl in E.
    destruct (WcfTimeout env >? 0); [|discriminate].
    rewrite !app_assoc, List.filter_app, <- !app_assoc.
    now rewrite steps_before_host_make_no_host_call.
  - rewrite (events_of_Destructor_completes env m E).
    rewrite (Destructor_completes env m E).
    rewrite host_calls_of_protocol.
    unfold step5_close_host, step5_close_or_abort. rewrite Hhost, Hwcf.
    now destruct (WcfTimeout env >? 0).
Qed.

Lemma host_is_closed_or_aborted_once_witness :
  (WcfEnabled no_timeout_env = true /\
   _browserProcessServiceHost (this loaded) = Some (ServiceHost 7)) /\
  List.filter on_host (events_since loaded (snd (Destructor no_timeout_env loaded)))
    = [HostAbort (ServiceHost 7)] /\
  fst (Destructor no_timeout_env loaded) = Returns tt.
Proof.
  split; [split; reflexivity|].
  exact (host_is_closed_or_aborted_once no_timeout_env loaded (ServiceHost 7)
           eq_refl eq_refl).
Defined.

(** ** Tearing down twice *)



(** ** A close that exceeds its timeout *)

(** C2, as the specification states it, fails: with WCF enabled, a timeout
    of two seconds and a host whose close exceeds it, the destructor calls
    [Close] and nothing else on the host, no [Abort] follows, the
    TimeoutException leaves the destructor, and the host's reference, the
    back-reference and the object repository are still held. *)
Lemma close_timeout_is_not_recovered :
  let result := Destructor slow_env loaded in
  let made := events_since loaded (snd result) in
  WcfEnabled slow_env = true /\
  _browserProcessServiceHost (this loaded) = Some (ServiceHost 7) /\
  WcfTimeout slow_env > 0 /\
  closeExceedsTimeout slow_env (ServiceHost 7) (WcfTimeout slow_env) = true /\
  ~ In (HostAbort (ServiceHost 7)) made /\
  fst result = Throws TimeoutException /\
  ~ In (RepositoryDelete {| jor_addr := 2 |}) made /\
  _browserProcessServiceHost (this (snd result)) = Some (ServiceHost 7) /\
  _webBrowserInternal (this (snd result)) = Some (WebBrowser 100) /\
  _javaScriptObjectRepository (this (snd result)) = Some {| jor_addr := 2 |}.
Proof.
  vm_compute. repeat split; try reflexivity; intuition discriminate.
Qed.

(** C2, amended.  With WCF enabled, a host held and a timeout greater than
    zero the destructor calls [Close] with the timeout and makes no other
    call on the host, in particular no [Abort].  When the close exceeds the
    timeout the TimeoutException leaves the destructor right after the
    call: steps 1 to 4 are done (flag set, queue, client adapter and browser
    wrapper null) while the host's reference, the back-reference and the
    object repository stay as they were.  When the close returns in time
    the teardown runs to its end. *)
Theorem close_timeout_leaves_the_destructor (env : Environment) (m : Machine)
    (h : BrowserProcessServiceHost)
    (Hwcf : WcfEnabled env = true)
    (Hhost : _browserProcessServiceHost (this m) = Some h)
    (Htimeout : WcfTimeout env > 0) :
  let result := Destructor env m in
  let made := events_since m (snd result) in
  List.filter on_host made = [HostClose h (WcfTimeout env)] /\
  if closeExceedsTimeout env h (WcfTimeout env)
  then fst result = Throws TimeoutException /\
       last made = Some (HostClose h (WcfTimeout env)) /\
       this (snd result) = interrupted (this m)
  else fst result = Returns tt /\
       this (snd result) = torn_down env (this m).
Proof.
  cbv zeta.
  assert (Hgt : (WcfTimeout env >? 0) = true) by (apply Z.gtb_lt; lia).
  assert (Hout : close_times_out env (this m) =
                 closeExceedsTimeout env h (WcfTimeout env)).
  { unfold close_times_out. now rewrite Hhost, Hwcf, Hgt. }
  destruct (closeExceedsTimeout env h (WcfTimeout env)) eqn:E.
  - rewrite (Destructor_times_out env m h Hhost Hout). cbn [fst snd this].
    erewrite events_since_app by (cbn [log]; reflexivity).
    split; [|split; [reflexivity|split; [|reflexivity]]].
    + rewrite !app_assoc, List.filter_app, <- !app_assoc.
      now rewrite steps_before_host_make_no_host_call.
    + rewrite !app_assoc. apply last_snoc.
  - rewrite (events_of_Destructor_completes env m Hout).
    rewrite (Destructor_completes env m Hout). cbn [fst snd this].
    split; [|split; reflexivity].
    rewrite host_calls_of_protocol.
    unfold step5_close_host, step5_close_or_abort. now rewrite Hhost, Hwcf, Hgt.
Qed.

Lemma close_timeout_leaves_the_destructor_witness :
  (WcfEnabled slow_env = true /\
   _browserProcessServiceHost (this loaded) = Some (ServiceHost 7) /\
   WcfTimeout slow_env > 0) /\
  let result := Destructor slow_env loaded in
  let made := events_since loaded (snd result) in
  List.filter on_host made = [HostClose (ServiceHost 7) 20000000] /\
  fst result = Throws TimeoutException /\
  last made = Some (HostClose (ServiceHost 7) 20000000) /\
  this (snd result) = interrupted (this loaded).
Proof.
  split; [repeat split; reflexivity|].
  exact (close_timeout_leaves_the_destructor slow_env loaded (ServiceHost 7)
           eq_refl eq_refl eq_refl).
Defined.

(** ** A browser that arrives late *)

(** C3.  When [OnAfterBrowserCreated] is called on an adapter whose
    disposed flag is set, the call returns, deletes the browser handle it
    was given and does nothing else: no field of the adapter changes, so
    the handle is not stored. *)
Theorem late_browser_is_released_not_kept (m : Machine) (browser : IBrowser)
    (Hdisposed : _isDisposed (this m) = true) :
  fst (OnAfterBrowserCreated browser m) = Returns tt /\
  this (snd (OnAfterBrowserCreated browser m)) = this m /\
  events_since m (snd (OnAfterBrowserCreated browser m)) = [BrowserDelete browser].
Proof.
  unfold OnAfterBrowserCreated, read, bind, emit. cbn [this].
  rewrite Hdisposed. cbn [fst snd this].
  repeat split. now apply events_since_app.
Qed.

Lemma late_browser_is_released_not_kept_witness :
  let gone := snd (Destructor prompt_env loaded) in
  _isDisposed (this gone) = true /\
  fst (OnAfterBrowserCreated {| Identifier := 2 |} gone) = Returns tt /\
  this (snd (OnAfterBrowserCreated {| Identifier := 2 |} gone)) = this gone /\
  _browserWrapper (this (snd (OnAfterBrowserCreated {| Identifier := 2 |} gone))) = None /\
  events_since gone (snd (OnAfterBrowserCreated {| Identifier := 2 |} gone))
    = [BrowserDelete {| Identifier := 2 |}].
Proof.
  cbv zeta.
  destruct (late_browser_is_released_not_kept
              (snd (Destructor prompt_env loaded)) {| Identifier := 2 |} eq_refl)
    as (Hret & Hthis & Hmade).
  split; [reflexivity|]. split; [exact Hret|]. split; [exact Hthis|].
  split; [rewrite Hthis; reflexivity | exact Hmade].
Defined.

(** ** Construction *)

(** The constructor in closed form. *)
Lemma construct_completes (webBrowserInternal : IWebBrowserInternal)
    (offScreenRendering : bool) (taskScheduler : TaskScheduler)
    (trace : list Event) (free : nat) :
  let ca := {| ca_addr := free; ca_render := offScreenRendering;
               ca_browserControl := webBrowserInternal;
               ca_pendingTaskRepository := PendingTasks (S free) |} in
  let r := {| jor_addr := S (S free) |} in
  let f := {| jcf_addr := S (S (S free));
              jcf_pendingTasks := PendingTasks (S free) |} in
  let q := {| mrq_addr := S (S (S (S free))); mrq_repository := Some r;
              mrq_taskScheduler := taskScheduler |} in
  construct webBrowserInternal offScreenRendering taskScheduler trace free =
    (Returns tt,
     {| this :=
          {| _clientAdapter := Some ca;
             _browserProcessServiceHost := None;
             _webBrowserInternal := Some webBrowserInternal;
             _javaScriptObjectRepository := Some r;
             _javascriptCallbackFactory := Some f;
             _methodRunnerQueue := Some q;
             _browserWrapper := None;
             _isDisposed := false |};
        log := trace ++
          [ FieldWrite F_isDisposed (Flag false);
            NewClientAdapter ca; ClientAdapterAddRef ca;
            FieldWrite F_clientAdapter Object;
            FieldWrite F_webBrowserInternal Object;
            NewObjectRepository r; FieldWrite F_javaScriptObjectRepository Object;
            NewCallbackFactory f; FieldWrite F_javascriptCallbackFactory Object;
            NewMethodRunnerQueue q; FieldWrite F_methodRunnerQueue Object;
            QueueSubscribe q; QueueStart q ];
        next_addr := S (S (S (S (S free)))) |}).
Proof.
  destruct offScreenRendering; cbv -[app]; flatten_log; reflexivity.
Qed.

(** C8.  The constructor returns.  It creates a [RenderClientAdapter] when
    [offScreenRendering] is true and a [ClientAdapter] otherwise; then, in
    both cases and in this order, it creates the object repository, the
    callback factory on the client adapter's pending-task table and the
    method runner queue on that repository and the given scheduler,
    subscribes to the queue's completion event and starts the queue, which
    is the last thing it does.  The disposed flag is false afterwards. *)
Theorem constructor_wires_and_starts (webBrowserInternal : IWebBrowserInternal)
    (offScreenRendering : bool) (taskScheduler : TaskScheduler)
    (trace : list Event) (free : nat) :
  let result := construct webBrowserInternal offScreenRendering taskScheduler trace free in
  let born := snd result in
  fst result = Returns tt /\
  _isDisposed (this born) = false /\
  _webBrowserInternal (this born) = Some webBrowserInternal /\
  _browserWrapper (this born) = None /\
  _browserProcessServiceHost (this born) = None /\
  exists ca r f q,
    _clientAdapter (this born) = Some ca /\
    _javaScriptObjectRepository (this born) = Some r /\
    _javascriptCallbackFactory (this born) = Some f /\
    _methodRunnerQueue (this born) = Some q /\
    ca_render ca = offScreenRendering /\
    ca_browserControl ca = webBrowserInternal /\
    jcf_pendingTasks f = GetPendingTaskRepository ca /\
    mrq_repository q = Some r /\
    mrq_taskScheduler q = taskScheduler /\
    events_since {| this := zeroed; log := trace; next_addr := free |} born =
      [ FieldWrite F_isDisposed (Flag false);
        NewClientAdapter ca; ClientAdapterAddRef ca;
        FieldWrite F_clientAdapter Object;
        FieldWrite F_webBrowserInternal Object;
        NewObjectRepository r; FieldWrite F_javaScriptObjectRepository Object;
        NewCallbackFactory f; FieldWrite F_javascriptCallbackFactory Object;
        NewMethodRunnerQueue q; FieldWrite F_methodRunnerQueue Object;
        QueueSubscribe q; QueueStart q ].
Proof.
  cbv zeta. rewrite construct_completes. cbn [fst snd this].
  repeat (split; [reflexivity|]).
  do 4 eexists. repeat (split; [reflexivity|]).
  now apply events_since_app.
Qed.

(** ** The disposed flag over the life of an adapter *)


(** ** The method invocation queue *)

Module MethodRunnerQueueFacts.
Import MethodRunnerQueueModel.

Lemma completed_snoc (q : Queue) (inv : MethodInvocation) (res : MethodResult) :
  map fst (notifications q ++ [(inv, res)]) = completed q ++ [inv].
Proof.
  unfold completed. now rewrite map_app.
Qed.

(** Every request the queue has accepted is either completed or still
    pending, and the two lists together are the accepted requests in the
    order of their enqueueing. *)
Lemma run_keeps_order (schedule : list Action) (q : Queue) :
  completed (run schedule q) ++ pending (run schedule q) =
  completed q ++ pending q ++ accepted q schedule.
Proof.
  revert q. induction schedule as [|a schedule IH]; intros q.
  - unfold accepted. simpl. destruct (consumer q); now rewrite app_nil_r.
  - change (run (a :: schedule) q) with (run schedule (act q a)).
    rewrite IH. clear IH.
    destruct a as [name o|inv| | |]; unfold accepted; simpl.
    + reflexivity.
    + unfold Enqueue. destruct (consumer q) eqn:E; simpl; rewrite ?E;
        try reflexivity; now rewrite <- !app_assoc.
    + unfold Start. destruct (consumer q) eqn:E; simpl; now rewrite ?E.
    + now destruct (consumer q).
    + unfold Consume.
      destruct (consumer q) eqn:E; try (now rewrite E).
      destruct (pending q) as [|inv rest] eqn:P; simpl.
      * now rewrite E, P.
      * unfold completed at 1. cbn [notifications].
        rewrite completed_snoc, <- !app_assoc. reflexivity.
Qed.

(** C9.  Whatever the schedule of registrations, enqueues, starts, stops
    and turns of the consumer, the requests the queue has completed,
    followed by those still pending, are the requests submitted, in the
    order of their submission: completions come in enqueueing order, none
    overtakes another.  In particular three requests A, B, C enqueued
    before [start()] complete as A, B, C after it, each notification
    carrying the result of its own request, and none completes before the
    start. *)
Theorem requests_complete_in_order (objects : gmap string HostObject)
    (schedule : list Action) (A B C : MethodInvocation) :
  completed (run schedule (create objects))
    ++ pending (run schedule (create objects)) = submitted schedule /\
  notifications (run [DoEnqueue A; DoEnqueue B; DoEnqueue C] (create objects)) = [] /\
  notifications
    (run [DoEnqueue A; DoEnqueue B; DoEnqueue C; DoStart;
          DoConsume; DoConsume; DoConsume] (create objects))
    = [(A, execute objects A); (B, execute objects B); (C, execute objects C)] /\
  completed
    (run [DoEnqueue A; DoEnqueue B; DoEnqueue C; DoStart;
          DoConsume; DoConsume; DoConsume] (create objects))
    = [A; B; C].
Proof.
  split; [|repeat split].
  rewrite run_keeps_order. reflexivity.
Qed.

End MethodRunnerQueueFacts.

(** * Further properties of the constructor, the finalizer and the
    destructor *)

(** The destructor in closed form, in both outcomes. *)
Lemma Destructor_run (env : Environment) (m : Machine) :
  Destructor env m =
    (teardown_outcome env (this m),
     {| this := teardown_fields env (this m);
        log := log m ++ step1_mark_disposed ++ step2_stop_queue (this m)
               ++ step3_release_client (this m) ++ step4_close_browser (this m)
               ++ teardown_tail env (this m);
        next_addr := next_addr m |}).
Proof.
  unfold teardown_outcome, teardown_fields, teardown_tail.
  destruct (close_times_out env (this m)) eqn:E.
  - destruct (_browserProcessServiceHost (this m)) as [h|] eqn:Eh.
    + now rewrite (Destructor_times_out env m h Eh E).
    + unfold close_times_out in E. now rewrite Eh in E.
  - now rewrite (Destructor_completes env m E).
Qed.

Lemma events_of_Destructor (env : Environment) (m : Machine) :
  events_since m (snd (Destructor env m)) =
    step1_mark_disposed ++ step2_stop_queue (this m) ++ step3_release_client (this m)
    ++ step4_close_browser (this m) ++ teardown_tail env (this m).
Proof.
  rewrite Destructor_run. cbn [snd]. now apply events_since_app.
Qed.

(** The finalizer in closed form. *)
Lemma Finalizer_run (m : Machine) :
  Finalizer m =
    (Returns tt,
     {| this := with_clientAdapter None (this m);
        log := log m ++ step3_release_client (this m);
        next_addr := next_addr m |}).
Proof.
  destruct m as [[[ca|] h w r f q b d] l n]; unfold step3_release_client;
    unfold_cli; simpl; flatten_log; reflexivity.
Qed.

(** X1.  The destructor raises exactly when it reaches [Close] on a host
    whose close exceeds the timeout, and then it raises TimeoutException;
    in every other case it returns.  No state makes it dereference a null
    handle. *)
Theorem destructor_raises_only_on_close_timeout (env : Environment) (m : Machine) :
  fst (Destructor env m) =
    match _browserProcessServiceHost (this m) with
    | Some h =>
        if WcfEnabled env && (WcfTimeout env >? 0)
           && closeExceedsTimeout env h (WcfTimeout env)
        then Throws TimeoutException
        else Returns tt
    | None => Returns tt
    end.
Proof.
  rewrite Destructor_run. cbn [fst]. unfold teardown_outcome, close_times_out.
  destruct (_browserProcessServiceHost (this m)) as [h|]; [|reflexivity].
  now destruct (WcfEnabled env && (WcfTimeout env >? 0)
                && closeExceedsTimeout env h (WcfTimeout env)).
Qed.

Lemma teardown_fields_cleared (env : Environment) (a : ManagedCefBrowserAdapter) :
  _isDisposed (teardown_fields env a) = true /\
  _methodRunnerQueue (teardown_fields env a) = None /\
  _clientAdapter (teardown_fields env a) = None /\
  _browserWrapper (teardown_fields env a) = None /\
  _javascriptCallbackFactory (teardown_fields env a) = _javascriptCallbackFactory a.
Proof.
  unfold teardown_fields. now destruct (close_times_out env a).
Qed.

(** X2.  However the destructor is left, by return or by the exception of
    [Close], the first four steps have been carried out in full and in
    order: the disposed flag is set, the queue has been unsubscribed from
    and stopped, the client adapter's native reference has been released and
    the browser has been closed and deleted, and the three handles are
    null.  A close that fails never leaks the native reference or the
    browser. *)
Theorem destructor_always_finishes_steps_1_to_4 (env : Environment) (m : Machine) :
  let after := this (snd (Destructor env m)) in
  _isDisposed after = true /\
  _methodRunnerQueue after = None /\
  _clientAdapter after = None /\
  _browserWrapper after = None /\
  exists rest,
    events_since m (snd (Destructor env m)) =
      step1_mark_disposed ++ step2_stop_queue (this m)
      ++ step3_release_client (this m) ++ step4_close_browser (this m) ++ rest.
Proof.
  cbv zeta. rewrite events_of_Destructor. rewrite Destructor_run. cbn [snd this].
  destruct (teardown_fields_cleared env (this m)) as (Hd & Hq & Hc & Hb & _).
  repeat (split; [assumption|]).
  now exists (teardown_tail env (this m)).
Qed.

Lemma steps_leave_factory_alone (env : Environment) (a : ManagedCefBrowserAdapter) :
  List.filter writes_callback_factory
    (step1_mark_disposed ++ step2_stop_queue a ++ step3_release_client a
     ++ step4_close_browser a ++ teardown_tail env a) = [].
Proof.
  unfold step1_mark_disposed, step2_stop_queue, step3_release_client,
    step4_close_browser, teardown_tail, step5_close_host, step5_close_or_abort,
    step6_release_rest.
  destruct (close_times_out env a), (_methodRunnerQueue a), (_clientAdapter a),
    (_browserWrapper a), (_browserProcessServiceHost a),
    (_javaScriptObjectRepository a), (WcfEnabled env), (WcfTimeout env >? 0);
    reflexivity.
Qed.

(** X3.  The destructor does not release the callback factory: in either
    outcome [_javascriptCallbackFactory] holds what it held before the call
    and the destructor makes no assignment to it. *)
Theorem destructor_keeps_callback_factory (env : Environment) (m : Machine) :
  _javascriptCallbackFactory (this (snd (Destructor env m))) =
    _javascriptCallbackFactory (this m) /\
  List.filter writes_callback_factory (events_since m (snd (Destructor env m))) = [].
Proof.
  rewrite events_of_Destructor, steps_leave_factory_alone.
  rewrite Destructor_run. cbn [snd this].
  destruct (teardown_fields_cleared env (this m)) as (_ & _ & _ & _ & Hf).
  now rewrite Hf.
Qed.

(** Events of two runs in a row. *)
Lemma events_since_trans (m m' m'' : Machine) (es es' : list Event) :
  log m' = log m ++ es -> log m'' = log m' ++ es' ->
  events_since m m'' = es ++ es'.
Proof.
  intros E E'. apply events_since_app. rewrite E', E. now rewrite app_assoc.
Qed.

(** X4.  A teardown right after construction returns in every environment:
    the new adapter holds neither a browser nor a service host, so neither
    is called and the WCF settings play no part.  Over the life of the
    adapter what the teardown gives up is what the constructor took (the
    native reference, the repository, the started queue), the subscription
    to the queue's completion event is followed by its cancellation on the
    same queue, and afterwards every handle but the callback factory is
    null. *)
Theorem construct_then_teardown_is_balanced (webBrowserInternal : IWebBrowserInternal)
    (offScreenRendering : bool) (taskScheduler : TaskScheduler)
    (trace : list Event) (free : nat) (env : Environment) :
  let start := {| this := zeroed; log := trace; next_addr := free |} in
  let born := snd (construct webBrowserInternal offScreenRendering taskScheduler trace free) in
  let result := Destructor env born in
  let life := events_since start (snd result) in
  fst result = Returns tt /\
  List.filter on_host life = [] /\
  omap acquired life ≡ₚ omap released life /\
  (exists q, _methodRunnerQueue (this born) = Some q /\
             List.filter on_subscription life = [QueueSubscribe q; QueueUnsubscribe q]) /\
  this (snd result) =
    with_javascriptCallbackFactory (_javascriptCallbackFactory (this born))
      (with_isDisposed true zeroed).
Proof.
  cbv zeta. rewrite construct_completes. cbn [snd].
  rewrite Destructor_run. cbn [fst snd this].
  erewrite events_since_app by (cbn [log]; rewrite <- app_assoc; reflexivity).
  unfold teardown_outcome, teardown_fields, teardown_tail, close_times_out,
    step1_mark_disposed, step2_stop_queue, step3_release_client, step4_close_browser,
    step5_close_host, step6_release_rest, torn_down.
  cbn.
  split; [reflexivity|]. split; [reflexivity|]. split.
  - symmetry. apply (Permutation_cons_append [_; _]).
  - split; [eexists; split; reflexivity|].
    unfold with_javascriptCallbackFactory, with_isDisposed. simpl.
    now destruct (WcfEnabled env).
Qed.

(** X5.  When a new adapter is only finalized (collected without a
    teardown) the finalizer gives up the native reference the constructor
    took and nothing else: the queue is still subscribed to and running,
    its handle and the repository's are still held, and the disposed flag is
    still false. *)
Theorem construct_then_finalizer_leaves_queue_running
    (webBrowserInternal : IWebBrowserInternal)
    (offScreenRendering : bool) (taskScheduler : TaskScheduler)
    (trace : list Event) (free : nat) :
  let start := {| this := zeroed; log := trace; next_addr := free |} in
  let born := snd (construct webBrowserInternal offScreenRendering taskScheduler trace free) in
  let result := Finalizer born in
  let life := events_since start (snd result) in
  fst result = Returns tt /\
  (exists ca, _clientAdapter (this born) = Some ca /\
              omap released life = [TheClientAdapter ca]) /\
  (exists q, _methodRunnerQueue (this (snd result)) = Some q /\
             List.filter on_subscription life = [QueueSubscribe q] /\
             In (QueueStart q) life) /\
  _javaScriptObjectRepository (this (snd result)) = _javaScriptObjectRepository (this born) /\
  _isDisposed (this (snd result)) = false.
Proof.
  cbv zeta. rewrite construct_completes. cbn [snd].
  rewrite Finalizer_run. cbn [fst snd this].
  erewrite events_since_app by (cbn [log]; rewrite <- app_assoc; reflexivity).
  unfold step3_release_client. cbn.
  split; [reflexivity|].
  split; [eexists; split; reflexivity|].
  split; [|split; reflexivity].
  eexists. split; [reflexivity|]. split; [reflexivity|]. intuition.
Qed.

(** ** The native reference over any number of cleanups *)

Lemma client_releases_of_teardown (env : Environment) (a : ManagedCefBrowserAdapter) :
  client_releases
    (step1_mark_disposed ++ step2_stop_queue a ++ step3_release_client a
     ++ step4_close_browser a ++ teardown_tail env a) =
  match _clientAdapter a with
  | Some ca => [ca]
  | None => []
  end.
Proof.
  unfold step1_mark_disposed, step2_stop_queue, step3_release_client,
    step4_close_browser, teardown_tail, step5_close_host, step5_close_or_abort,
    step6_release_rest.
  destruct (close_times_out env a), (_methodRunnerQueue a), (_clientAdapter a),
    (_browserWrapper a), (_browserProcessServiceHost a),
    (_javaScriptObjectRepository a), (WcfEnabled env), (WcfTimeout env >? 0);
    reflexivity.
Qed.

(** One cleanup releases the reference the adapter holds, if any, and
    leaves it holding none. *)
Lemma cleanup_releases_held (c : Cleanup) (m : Machine) :
  exists es,
    log (snd (cleanup c m)) = log m ++ es /\
    client_releases es =
      match _clientAdapter (this m) with
      | Some ca => [ca]
      | None => []
      end /\
    _clientAdapter (this (snd (cleanup c m))) = None.
Proof.
  destruct c as [|env]; cbn [cleanup].
  - rewrite Finalizer_run. cbn [snd log this].
    exists (step3_release_client (this m)). split; [reflexivity|]. split; [|reflexivity].
    unfold step3_release_client. now destruct (_clientAdapter (this m)).
  - rewrite Destructor_run. cbn [snd log this].
    eexists. split; [reflexivity|]. split.
    + apply client_releases_of_teardown.
    + apply teardown_fields_cleared.
Qed.

Lemma cleanup_all_releases_held (cs : list Cleanup) (m : Machine) :
  exists es,
    log (cleanup_all cs m) = log m ++ es /\
    client_releases es =
      match cs, _clientAdapter (this m) with
      | _ :: _, Some ca => [ca]
      | _, _ => []
      end.
Proof.
  revert m. induction cs as [|c cs IH]; intros m.
  - exists []. split; [now rewrite app_nil_r|reflexivity].
  - destruct (cleanup_releases_held c m) as (es1 & Hlog1 & Hrel1 & Hnone).
    destruct (IH (snd (cleanup c m))) as (es2 & Hlog2 & Hrel2).
    exists (es1 ++ es2). split.
    + change (cleanup_all (c :: cs) m) with (cleanup_all cs (snd (cleanup c m))).
      now rewrite Hlog2, Hlog1, app_assoc.
    + unfold client_releases in *. rewrite omap_app, Hrel1, Hrel2, Hnone.
      destruct cs, (_clientAdapter (this m)); reflexivity.
Qed.

(** X6.  Over any sequence of finalizer and destructor calls, in any order
    and under any settings, the client adapter's native reference is
    released exactly once when the adapter held one and at least one call
    was made, and never otherwise: no interleaving of collection and
    disposal releases it twice, and a call that raised does not make a later
    one release it again. *)
Theorem native_reference_is_released_once (cs : list Cleanup) (m : Machine) :
  client_releases (events_since m (cleanup_all cs m)) =
    match cs, _clientAdapter (this m) with
    | _ :: _, Some ca => [ca]
    | _, _ => []
    end.
Proof.
  destruct (cleanup_all_releases_held cs m) as (es & Hlog & Hrel).
  now rewrite (events_since_app _ _ _ Hlog).
Qed.

(** ** Calling the destructor again after [Close] raised *)

(** X7.  When [Close] raised, the host's reference was not cleared (line
    106 was not reached), so a second call of the destructor with WCF still
    enabled calls the host again: over the two runs the host receives the
    first [Close] and then the [Close] or [Abort] of the second run.  The
    second run does nothing else before that call than write the flag and
    the client adapter's field: it makes no call on the queue, the browser
    or the client adapter.  After the call it clears the host's field and
    releases the back-reference and the repository, unless [Close] raised
    again. *)
Theorem retry_after_timeout_calls_host_again (env env2 : Environment) (m : Machine)
    (h : BrowserProcessServiceHost)
    (Hhost : _browserProcessServiceHost (this m) = Some h)
    (Hwcf : WcfEnabled env = true)
    (Htimeout : WcfTimeout env > 0)
    (Hslow : closeExceedsTimeout env h (WcfTimeout env) = true)
    (Hwcf2 : WcfEnabled env2 = true) :
  let first := Destructor env m in
  let second := Destructor env2 (snd first) in
  fst first = Throws TimeoutException /\
  events_since (snd first) (snd second) =
    FieldWrite F_isDisposed (Flag true) :: FieldWrite F_clientAdapter Null
    :: (if WcfTimeout env2 >? 0 then HostClose h (WcfTimeout env2) else HostAbort h)
    :: (if (WcfTimeout env2 >? 0) && closeExceedsTimeout env2 h (WcfTimeout env2)
        then []
        else FieldWrite F_browserProcessServiceHost Null
             :: step6_release_rest (this m)) /\
  List.filter on_host (events_since m (snd second)) =
    [HostClose h (WcfTimeout env);
     if WcfTimeout env2 >? 0 then HostClose h (WcfTimeout env2) else HostAbort h].
Proof.
  cbv zeta.
  assert (Hgt : (WcfTimeout env >? 0) = true) by (apply Z.gtb_lt; lia).
  assert (Hout : close_times_out env (this m) = true).
  { unfold close_times_out. now rewrite Hhost, Hwcf, Hgt, Hslow. }
  rewrite (Destructor_times_out env m h Hhost Hout). cbn [fst snd].
  split; [reflexivity|].
  rewrite Destructor_run. cbn [snd this log].
  destruct m as [[ca h0 w r f q b d] l n]. cbn [this log
    _browserProcessServiceHost] in *. subst h0.
  split.
  - erewrite events_since_app by (cbn [log]; reflexivity).
    unfold teardown_tail, close_times_out, step5_close_host, step5_close_or_abort,
      step6_release_rest, step2_stop_queue, step3_release_client, step4_close_browser,
      step1_mark_disposed, interrupted.
    cbn [_methodRunnerQueue _clientAdapter _browserWrapper _browserProcessServiceHost
         _javaScriptObjectRepository]. rewrite Hwcf2.
    destruct r, (WcfTimeout env2 >? 0),
      (closeExceedsTimeout env2 h (WcfTimeout env2)); reflexivity.
  - erewrite events_since_app by (cbn [log]; rewrite <- app_assoc; reflexivity).
    unfold teardown_tail, close_times_out, step5_close_host, step5_close_or_abort,
      step6_release_rest, step2_stop_queue, step3_release_client, step4_close_browser,
      step1_mark_disposed, interrupted.
    cbn [_methodRunnerQueue _clientAdapter _browserWrapper _browserProcessServiceHost
         _javaScriptObjectRepository]. rewrite Hwcf2.
    destruct q, ca, b, r, (WcfTimeout env2 >? 0),
      (closeExceedsTimeout env2 h (WcfTimeout env2)); reflexivity.
Qed.

Lemma retry_after_timeout_calls_host_again_witness :
  (_browserProcessServiceHost (this loaded) = Some (ServiceHost 7) /\
   WcfEnabled slow_env = true /\ WcfTimeout slow_env > 0 /\
   closeExceedsTimeout slow_env (ServiceHost 7) (WcfTimeout slow_env) = true /\
   WcfEnabled no_timeout_env = true) /\
  fst (Destructor slow_env loaded) = Throws TimeoutException /\
  events_since (snd (Destructor slow_env loaded))
    (snd (Destructor no_timeout_env (snd (Destructor slow_env loaded)))) =
    [ FieldWrite F_isDisposed (Flag true); FieldWrite F_clientAdapter Null;
      HostAbort (ServiceHost 7); FieldWrite F_browserProcessServiceHost Null;
      FieldWrite F_webBrowserInternal Null; RepositoryDelete {| jor_addr := 2 |};
      FieldWrite F_javaScriptObjectRepository Null ] /\
  List.filter on_host
    (events_since loaded (snd (Destructor no_timeout_env (snd (Destructor slow_env loaded)))))
    = [HostClose (ServiceHost 7) 20000000; HostAbort (ServiceHost 7)].
Proof.
  split; [repeat split; reflexivity|].
  exact (retry_after_timeout_calls_host_again slow_env no_timeout_env loaded
           (ServiceHost 7) eq_refl eq_refl eq_refl eq_refl eq_refl).
Defined.

(** ** When the settings do not matter *)

(** X8.  The WCF settings are read only behind the test of line 96: for an
    adapter without a service host the destructor does the same under any
    two environments, and so it does, host or no host, under any two
    environments that both have WCF disabled.  Timeout and host behaviour
    then have no influence on the outcome, the fields or the calls made. *)
Theorem teardown_ignores_settings_without_host (env env' : Environment) (m : Machine)
    (Hidle : _browserProcessServiceHost (this m) = None \/
             (WcfEnabled env = false /\ WcfEnabled env' = false)) :
  Destructor env m = Destructor env' m.
Proof.
  rewrite !Destructor_run.
  unfold teardown_outcome, teardown_fields, teardown_tail, close_times_out,
    step5_close_host, torn_down.
  destruct Hidle as [Hnone | [Hoff Hoff']].
  - rewrite Hnone. now destruct (WcfEnabled env), (WcfEnabled env').
  - rewrite Hoff, Hoff'. now destruct (_browserProcessServiceHost (this m)).
Qed.

Lemma teardown_ignores_settings_without_host_witness :
  (WcfEnabled wcf_off_env = false /\
   WcfEnabled {| WcfEnabled := false; WcfTimeout := 0;
                 closeExceedsTimeout := fun _ _ => false |} = false) /\
  Destructor wcf_off_env loaded =
  Destructor {| WcfEnabled := false; WcfTimeout := 0;
                closeExceedsTimeout := fun _ _ => false |} loaded.
Proof.
  split; [split; reflexivity|].
  apply (teardown_ignores_settings_without_host wcf_off_env _ loaded).
  right. split; reflexivity.
Defined.

(** ** Collection before disposal *)

(** X9.  Running the finalizer before the destructor changes neither the
    destructor's outcome nor the fields it leaves, and the two orders give
    up the same resources, each as often: the finalizer only moves the
    release of the native reference ahead of the stopping of the queue. *)
Theorem finalizer_before_destructor_changes_nothing (env : Environment) (m : Machine) :
  let alone := Destructor env m in
  let after_finalizer := Destructor env (snd (Finalizer m)) in
  fst after_finalizer = fst alone /\
  this (snd after_finalizer) = this (snd alone) /\
  omap released (events_since m (snd after_finalizer))
    ≡ₚ omap released (events_since m (snd alone)).
Proof.
  cbv zeta. rewrite Finalizer_run. cbn [snd].
  rewrite events_of_Destructor.
  rewrite !Destructor_run. cbn [fst snd this log].
  erewrite events_since_app by (cbn [log]; rewrite <- app_assoc; reflexivity).
  destruct m as [[ca h w r f q b d] l n]. cbn [this].
  unfold teardown_outcome, teardown_fields, teardown_tail, close_times_out,
    with_clientAdapter, interrupted, torn_down, step1_mark_disposed, step2_stop_queue,
    step3_release_client, step4_close_browser, step5_close_host, step5_close_or_abort,
    step6_release_rest.
  destruct ca, q, b, h, r, (WcfEnabled env), (WcfTimeout env >? 0); simpl;
    repeat match goal with
           | |- context [closeExceedsTimeout ?e ?x ?t] =>
               destruct (closeExceedsTimeout e x t)
           end;
    (split; [reflexivity|]); (split; [reflexivity|]);
    simpl; try reflexivity; apply perm_swap.
Qed.

(** * The teardown in either outcome *)

(** C1, as the specification states it, fails: when [Close] exceeds its
    timeout the destructor is left before the sixth step.  The host's field
    is not cleared, the back-reference is not released and the repository is
    not deleted, so the events of that teardown are not the six steps. *)
Lemma teardown_stops_before_step_6 :
  let result := Destructor slow_env loaded in
  let made := events_since loaded (snd result) in
  fst result = Throws TimeoutException /\
  made <> step1_mark_disposed ++ step2_stop_queue (this loaded)
          ++ step3_release_client (this loaded) ++ step4_close_browser (this loaded)
          ++ step5_close_host slow_env (this loaded) ++ step6_release_rest (this loaded) /\
  ~ In (FieldWrite F_browserProcessServiceHost Null) made /\
  ~ In (FieldWrite F_webBrowserInternal Null) made /\
  ~ In (RepositoryDelete {| jor_addr := 2 |}) made /\
  _webBrowserInternal (this (snd result)) = Some (WebBrowser 100) /\
  _javaScriptObjectRepository (this (snd result)) = Some {| jor_addr := 2 |}.
Proof.
  vm_compute. repeat split; try reflexivity; try discriminate; intuition discriminate.
Qed.

(** C1, amended.  Every teardown through the destructor performs steps one
    to four in order: the disposed flag is written first; the queue is
    unsubscribed from, stopped and forgotten; the client adapter's native
    reference is released, before any call on the browser; the browser,
    when there is one, is closed with force set and deleted.  Each step
    depends only on its own resource in the state the teardown started
    from.  When the destructor does not reach a [Close] that exceeds its
    timeout, the fifth and sixth steps follow (the host closed or aborted
    and forgotten; the back-reference and the repository released last), the
    destructor returns and the fields are those of a finished teardown.
    When it does, the [Close] is the last thing the destructor does: the
    exception leaves it, the sixth step and the clearing of the host's field
    do not take place, and the fields are those of an interrupted
    teardown. *)
Theorem teardown_order_in_either_outcome (env : Environment) (m : Machine) :
  let result := Destructor env m in
  let made := events_since m (snd result) in
  if close_times_out env (this m)
  then fst result = Throws TimeoutException /\
       this (snd result) = interrupted (this m) /\
       made = step1_mark_disposed ++ step2_stop_queue (this m)
              ++ step3_release_client (this m) ++ step4_close_browser (this m)
              ++ match _browserProcessServiceHost (this m) with
                 | Some h => [HostClose h (WcfTimeout env)]
                 | None => []
                 end
  else fst result = Returns tt /\
       this (snd result) = torn_down env (this m) /\
       made = step1_mark_disposed ++ step2_stop_queue (this m)
              ++ step3_release_client (this m) ++ step4_close_browser (this m)
              ++ step5_close_host env (this m) ++ step6_release_rest (this m).
Proof.
  cbv zeta. rewrite events_of_Destructor, Destructor_run. cbn [fst snd this].
  unfold teardown_outcome, teardown_fields, teardown_tail.
  destruct (close_times_out env (this m)); repeat split.
Qed.

(** ** Tearing down twice, in either outcome *)





(** ** The disposed flag and what it guards *)









